(** * xinfer/models.py: the [BaseModel] class

    A shallow embedding of the abstract base class of x.infer's vision
    models: construction with dtype validation and logging, the latency
    statistics ([track_inference_time], [update_inference_count]), the
    report ([print_stats], [__repr__]) and the image loader
    ([parse_images]).

    Python values are modelled as follows.
    - [int] is [Z] (unbounded).
    - [float] is an IEEE 754 binary64 value, [spec_float] with precision 53
      and maximal exponent 1024; the arithmetic is the correctly rounded
      one of [SpecFloat] (round to nearest, ties to even).
    - [str] is [string]; a [dict] is a [gmap].
    - an exception is a value of [exn]; a call that may raise returns a
      [result].
    - the process log (loguru), the clock ([time.perf_counter]) and the
      image sources (PIL, requests) are explicit: the log is a list that is
      passed in and returned, the clock readings are arguments, and the
      file system and the network are a record of functions. *)

From Stdlib Require Import ZArith String List Bool Lia.
From Stdlib Require Import Floats.SpecFloat.
From stdpp Require Import gmap strings pretty.

Local Open Scope Z_scope.
#[local] Set Warnings "-register-all".

(* ================================================================== *)
(** * Part I: definitions                                              *)
(* ================================================================== *)

(** ** Binary64 floating point *)

Module Binary64.

Definition prec : Z := 53.
Definition emax : Z := 1024.

Abbreviation float := spec_float.

(** The literal [0.0]. *)
Definition zero : float := S754_zero false.

Definition add : float -> float -> float := SFadd prec emax.
Definition sub : float -> float -> float := SFsub prec emax.
Definition mul : float -> float -> float := SFmul prec emax.
Definition div : float -> float -> float := SFdiv prec emax.

(** [x == y] and [x <= y] on floats (both false on NaN). *)
Definition eqb : float -> float -> bool := SFeqb.
Definition leb : float -> float -> bool := SFleb.

(** The nearest binary64 value of an integer, ties to even; an integer
    beyond the binary64 range rounds to an infinity. *)
Definition of_Z (z : Z) : float := binary_normalize prec emax z 0 false.

Definition is_finite (x : float) : bool :=
  match x with
  | S754_zero _ | S754_finite _ _ _ => true
  | S754_infinity _ | S754_nan => false
  end.

Definition is_infinity (x : float) : bool :=
  match x with
  | S754_infinity _ => true
  | _ => false
  end.

(** A well-formed binary64 value: the mantissa of a finite number is
    canonical for its exponent. *)
Definition valid (x : float) : bool := valid_binary prec emax x.

(** [0.0 <= x]: true for both zeros, the positive numbers and
    [+inf]; false for the negative numbers, [-inf] and NaN. *)
Definition nonneg (x : float) : bool := leb zero x.

(** [has_sign s x]: [x] is a zero, a finite number or an infinity whose
    sign bit is [s]. *)
Definition has_sign (s : bool) (x : float) : Prop :=
  match x with
  | S754_zero s' | S754_infinity s' | S754_finite s' _ _ => s' = s
  | S754_nan => False
  end.

(** [nonzero_sign s x]: [x] is a finite number other than zero, or an
    infinity, whose sign bit is [s]. *)
Definition nonzero_sign (s : bool) (x : float) : Prop :=
  match x with
  | S754_infinity s' | S754_finite s' _ _ => s' = s
  | S754_zero _ | S754_nan => False
  end.

End Binary64.

Import Binary64.

(** ** Python exceptions and results *)

Inductive exc_type :=
| ValueError
| FileNotFoundError
| OverflowError
| ZeroDivisionError
| OtherError (name : string).

(** An exception instance: its class, its message and [__context__], the
    exception that was being handled when this one was raised. *)
Inductive exn :=
| Exception (type : exc_type) (msg : string) (context : option exn).

Definition exn_type (e : exn) : exc_type :=
  match e with Exception t _ _ => t end.

Definition exn_msg (e : exn) : string :=
  match e with Exception _ m _ => m end.

Definition exn_context (e : exn) : option exn :=
  match e with Exception _ _ c => c end.

Definition is_ValueError (e : exn) : bool :=
  match exn_type e with ValueError => true | _ => false end.

Definition is_FileNotFoundError (e : exn) : bool :=
  match exn_type e with FileNotFoundError => true | _ => false end.

Inductive result (A : Type) :=
| Ok (a : A)
| Raise (e : exn).

Arguments Ok {A} a.
Arguments Raise {A} e.

Definition bind {A B : Type} (r : result A) (k : A -> result B) : result B :=
  match r with
  | Ok a => k a
  | Raise e => Raise e
  end.

Notation "x <- r ;;; k" := (bind r (fun x => k))
  (at level 100, r at next level, right associativity).

(** [float(n)] for an int [n] (PyLong_AsDouble). *)
Definition int_to_float (n : Z) : result float :=
  let x := of_Z n in
  if is_infinity x
  then Raise (Exception OverflowError "int too large to convert to float" None)
  else Ok x.

(** [a / b] on two floats (float_div): a zero divisor raises. *)
Definition float_truediv (a b : float) : result float :=
  if eqb b zero
  then Raise (Exception ZeroDivisionError "float division by zero" None)
  else Ok (div a b).

(** [a / n] for a float [a] and an int [n]: [n] is converted first. *)
Definition float_truediv_int (a : float) (n : Z) : result float :=
  b <- int_to_float n ;;; float_truediv a b.

(** Python objects that can be handed to [parse_images]. *)
Inductive pyobj :=
| PyNone
| PyInt (n : Z)
| PyFloat (x : float)
| PyStr (s : string)
| PyList (items : list pyobj)
| PyTuple (items : list pyobj).

(** [s.startswith(prefixes)] with a tuple of prefixes. *)
Definition startswith (s : string) (prefixes : list string) : bool :=
  existsb (fun p => String.prefix p s) prefixes.

(** ** The instance *)

Inductive torch_dtype := torch_float32 | torch_float16 | torch_bfloat16.

(** [self.dtype] first holds the [str] argument and, once it has been
    validated, the torch dtype. *)
Inductive dtype_attr :=
| DtypeStr (s : string)
| DtypeTorch (d : torch_dtype).

Record BaseModel := {
  model_id : string;
  device : string;
  dtype : dtype_attr;
  num_inferences : Z;
  total_inference_time : float;
  average_latency : float
}.

Definition set_dtype (self : BaseModel) (v : dtype_attr) : BaseModel :=
  {| model_id := model_id self; device := device self; dtype := v;
     num_inferences := num_inferences self;
     total_inference_time := total_inference_time self;
     average_latency := average_latency self |}.

Definition set_num_inferences (self : BaseModel) (v : Z) : BaseModel :=
  {| model_id := model_id self; device := device self; dtype := dtype self;
     num_inferences := v;
     total_inference_time := total_inference_time self;
     average_latency := average_latency self |}.

Definition set_total_inference_time (self : BaseModel) (v : float) : BaseModel :=
  {| model_id := model_id self; device := device self; dtype := dtype self;
     num_inferences := num_inferences self;
     total_inference_time := v;
     average_latency := average_latency self |}.

Definition set_average_latency (self : BaseModel) (v : float) : BaseModel :=
  {| model_id := model_id self; device := device self; dtype := dtype self;
     num_inferences := num_inferences self;
     total_inference_time := total_inference_time self;
     average_latency := v |}.

(** ** Construction *)

Inductive log_level := INFO.

Record log_entry := { level : log_level; message : string }.

(** [logger.info(msg)]: appends one entry to the log. *)
Definition logger_info (log : list log_entry) (msg : string) : list log_entry :=
  log ++ [{| level := INFO; message := msg |}].

Definition dtype_map : gmap string torch_dtype :=
  <["bfloat16" := torch_bfloat16]>
    (<["float16" := torch_float16]>
      (<["float32" := torch_float32]> ∅)).

Definition dtype_error_msg : string :=
  "dtype must be one of 'float32', 'float16', or 'bfloat16'".

(** [BaseModel(model_id, device, dtype)], run on the log [log]: the log
    after the call and either the instance or the exception raised by
    [__init__]. *)
Definition __init__ (model_id device dtype : string) (log : list log_entry)
  : list log_entry * result BaseModel :=
  let self :=
    {| model_id := model_id; device := device; dtype := DtypeStr dtype;
       num_inferences := 0; total_inference_time := zero;
       average_latency := zero |} in
  let log := logger_info log ("Model: " +:+ model_id) in
  let log := logger_info log ("Device: " +:+ device) in
  let log := logger_info log ("Dtype: " +:+ dtype) in
  match dtype_map !! dtype with
  | None => (log, Raise (Exception ValueError dtype_error_msg None))
  | Some d => (log, Ok (set_dtype self (DtypeTorch d)))
  end.

(** ** Latency statistics *)

(** [with self.track_inference_time(): body]. [start_time] and [end_time]
    are the two readings of [time.perf_counter()]; [body] is the wrapped
    block, which returns the instance as it left it and how it ended. The
    [finally] clause runs on both exits, and the block's own outcome is
    the outcome of the statement. *)
Definition track_inference_time {A : Type} (self : BaseModel)
    (start_time end_time : float)
    (body : BaseModel -> BaseModel * result A) : BaseModel * result A :=
  let '(self, outcome) := body self in
  let self :=
    set_total_inference_time self
      (add (total_inference_time self)
           (mul (sub end_time start_time) (of_Z 1000))) in
  (self, outcome).

(** [self.update_inference_count(count)]: the instance after the call and
    how the call ended. The counter is stored before the average is
    computed, so it is kept when the division raises. *)
Definition update_inference_count (self : BaseModel) (count : Z)
  : BaseModel * result unit :=
  let self := set_num_inferences self (num_inferences self + count) in
  if negb (num_inferences self =? 0) then
    match float_truediv_int (total_inference_time self) (num_inferences self) with
    | Ok q => (set_average_latency self q, Ok tt)
    | Raise e => (self, Raise e)
    end
  else (set_average_latency self zero, Ok tt).

(** ** Reports *)

(** [str(self.dtype)]. *)
Definition str_dtype (v : dtype_attr) : string :=
  match v with
  | DtypeStr s => s
  | DtypeTorch torch_float32 => "torch.float32"
  | DtypeTorch torch_float16 => "torch.float16"
  | DtypeTorch torch_bfloat16 => "torch.bfloat16"
  end.

(** A rich table as [print_stats] builds it. The cells are the strings
    passed to [add_row]; nothing is escaped. *)
Record Column := { header : string; style : string }.

Record Table := {
  title : string;
  box : string;
  columns : list Column;
  rows : list (string * string)
}.

Definition add_column (t : Table) (header style : string) : Table :=
  {| title := title t; box := box t;
     columns := columns t ++ [{| header := header; style := style |}];
     rows := rows t |}.

Definition add_row (t : Table) (a v : string) : Table :=
  {| title := title t; box := box t; columns := columns t;
     rows := rows t ++ [(a, v)] |}.

(** What [print_stats] takes from the interpreter and from rich.
    - [int_max_str_digits] is [sys.get_int_max_str_digits()]: the largest
      number of decimal digits an int may have when it is converted to a
      string, or 0 when there is no limit (the interpreter accepts 0 and
      the values from 640, and starts with 4300).
    - [format_4f x] is [f"{x:.4f}"] for a float; it does not raise.
    - [console_print table console] is [Console().print(table)] on the
      terminal [console]: rich reads every cell as console markup, and
      either renders the table or raises (a cell with a closing tag that
      closes nothing raises [MarkupError]). *)
Record Reporting (Terminal : Type) := {
  int_max_str_digits : Z;
  format_4f : float -> string;
  console_print : Table -> Terminal -> Terminal * result unit
}.

Arguments int_max_str_digits {Terminal} _.
Arguments format_4f {Terminal} _ _.
Arguments console_print {Terminal} _ _ _.

(** The number of decimal digits of an int. *)
Definition decimal_digits (n : Z) : Z :=
  Z.of_nat (String.length (pretty (Z.abs n))).

(** [f"{n}"] for an int [n]: its decimal writing, or [ValueError] when it
    has more digits than the limit. *)
Definition format_int (limit n : Z) : result string :=
  if (0 <? limit) && (limit <? decimal_digits n)
  then Raise (Exception ValueError
                ("Exceeds the limit (" +:+ pretty limit +:+
                 " digits) for integer string conversion; " +:+
                 "use sys.set_int_max_str_digits() to increase the limit")
                None)
  else Ok (pretty n).

(** [self.print_stats()] on the terminal [console]: the terminal after
    the call and how the call ended. The rows are built in the order of
    the source, so a counter that cannot be written ends the call before
    anything is printed. The instance is read, not written. *)
Definition print_stats {Terminal : Type} (env : Reporting Terminal)
    (self : BaseModel) (console : Terminal) : Terminal * result unit :=
  let table :=
    {| title := "Model Info"; box := "ROUNDED"; columns := []; rows := [] |} in
  let table := add_column table "Attribute" "cyan" in
  let table := add_column table "Value" "magenta" in
  let table := add_row table "Model ID" (model_id self) in
  let table := add_row table "Device" (device self) in
  let table := add_row table "Dtype" (str_dtype (dtype self)) in
  match format_int (int_max_str_digits env) (num_inferences self) with
  | Raise e => (console, Raise e)
  | Ok n =>
      let table := add_row table "Number of Inferences" n in
      let table :=
        add_row table "Total Inference Time (ms)"
                (format_4f env (total_inference_time self)) in
      let table :=
        add_row table "Average Latency (ms)"
                (format_4f env (average_latency self)) in
      console_print env table console
  end.

(** [repr(self)]; [class_name] is [self.__class__.__name__]. *)
Definition __repr__ (class_name : string) (self : BaseModel) : string :=
  class_name +:+ "(" +:+
  "model_id='" +:+ model_id self +:+ "', " +:+
  "device='" +:+ device self +:+ "', " +:+
  "dtype='" +:+ str_dtype (dtype self) +:+ "', ".

(** ** Loading images *)

(** The image sources. [Image_open_convert path] is
    [Image.open(path).convert("RGB")] on a local path and
    [requests_get_open_convert url] is
    [Image.open(requests.get(url, stream=True).raw).convert("RGB")];
    each returns the decoded RGB image or the exception it raises. The
    file system and the network do not change during one call. *)
Record World (Image : Type) := {
  Image_open_convert : string -> result Image;
  requests_get_open_convert : string -> result Image
}.

Arguments Image_open_convert {Image} _ _.
Arguments requests_get_open_convert {Image} _ _.

Section ParseImages.

Context {Image : Type} (w : World Image).

(** The part of the loop body that produces [image] from a [str]. *)
Definition load_image (image_path : string) : result Image :=
  if startswith image_path ["http://"; "https://"] then
    requests_get_open_convert w image_path
  else
    match Image_open_convert w image_path with
    | Ok image => Ok image
    | Raise e =>
        if is_FileNotFoundError e then
          Raise (Exception ValueError
                   ("Local file not found: " +:+ image_path) (Some e))
        else Raise e
    end.

(** The [for] loop, from the elements still to visit and the list
    [parsed_images] built so far. *)
Fixpoint parse_images_loop (images : list pyobj) (parsed_images : list Image)
  : result (list Image) :=
  match images with
  | [] => Ok parsed_images
  | image_path :: images =>
      match image_path with
      | PyStr p =>
          image <- load_image p ;;;
          parse_images_loop images (parsed_images ++ [image])
      | _ =>
          Raise (Exception ValueError
                   "Input must be a string (local path or URL)" None)
      end
  end.

(** [self.parse_images(images)]; the method does not use [self]. *)
Definition parse_images (images : pyobj) : result (list Image) :=
  let images :=
    match images with
    | PyList items => items
    | _ => [images]
    end in
  parse_images_loop images [].

End ParseImages.

(** ** Sequences of calls on one instance *)

(** The calls a client can make on an instance once it is built. The block
    wrapped by a timed region is itself a sequence of calls, followed by
    the way the block ends: normally, or with an exception. The clock is
    read when the region is entered and when it is left. *)
Inductive op :=
| Track (start_time end_time : float) (body : list op) (exc : option exn)
| UpdateInferenceCount (count : Z)
| PrintStats
| Repr
| ParseImages (images : pyobj).

(** The instance after a call. A call that raises leaves the instance as
    it was when the exception left the method, and the client may go on
    using it. *)
Fixpoint run_op (o : op) (self : BaseModel) : BaseModel :=
  match o with
  | Track start_time end_time body exc =>
      fst (track_inference_time self start_time end_time
             (fun self =>
                (fold_left (fun self o => run_op o self) body self,
                 match exc with
                 | Some e => Raise e
                 | None => Ok tt
                 end)))
  | UpdateInferenceCount count => fst (update_inference_count self count)
  | PrintStats | Repr | ParseImages _ => self
  end.

Definition run (ops : list op) (self : BaseModel) : BaseModel :=
  fold_left (fun self o => run_op o self) ops self.

(** Two readings of a monotonic clock: finite binary64 numbers, the second
    not before the first. *)
Definition monotonic (start_time end_time : float) : bool :=
  is_finite start_time && valid start_time &&
  is_finite end_time && valid end_time &&
  leb start_time end_time.

(** The calls allowed by the class's contract: [update_inference_count]
    gets a positive count, and the clock is monotonic. *)
Fixpoint well_formed (o : op) : bool :=
  match o with
  | Track start_time end_time body _ =>
      monotonic start_time end_time && forallb well_formed body
  | UpdateInferenceCount count => 0 <? count
  | PrintStats | Repr | ParseImages _ => true
  end.

(** ** Properties of the statistics *)

(** [average_latency] agrees with the two accumulators: it is their
    quotient when the counter is positive and [0.0] otherwise. *)
Definition consistent (self : BaseModel) : Prop :=
  average_latency self =
    if 0 <? num_inferences self
    then div (total_inference_time self) (of_Z (num_inferences self))
    else zero.

(** What [update_inference_count self count] is to establish: the counter
    is [n + count], and the average is [T / (n + count)], or [0.0] when
    [n + count] is zero. *)
Definition update_inference_count_claim (self : BaseModel) (count : Z) : Prop :=
  let n := num_inferences self + count in
  let self' := fst (update_inference_count self count) in
  num_inferences self' = n /\
  average_latency self' =
    if n =? 0 then zero else div (total_inference_time self) (of_Z n).

(** Neither accumulator is negative. *)
Definition stats_nonneg (self : BaseModel) : Prop :=
  0 <= num_inferences self /\ nonneg (total_inference_time self) = true.

(** [s1] occurs in [s2]. *)
Definition mentions (s2 s1 : string) : bool :=
  match String.index 0 s1 s2 with
  | Some _ => true
  | None => false
  end.

(** The elements visited by the loop of [parse_images]: the argument when
    it is a list, and otherwise the argument alone. *)
Definition elements (images : pyobj) : list pyobj :=
  match images with
  | PyList items => items
  | _ => [images]
  end.


Section Loading.

Context {Image : Type} (w : World Image).

(** The element is a [str] that loads. *)
Definition loads (x : pyobj) : bool :=
  match x with
  | PyStr p =>
      match load_image w p with
      | Ok _ => true
      | Raise _ => false
      end
  | _ => false
  end.

(** Visiting the element does not raise anything but [ValueError]. *)
Definition loads_or_invalid (x : pyobj) : bool :=
  match x with
  | PyStr p =>
      match load_image w p with
      | Ok _ => true
      | Raise e => is_ValueError e
      end
  | _ => true
  end.

(** [image] is the decoding of the reference [p]: fetched when [p] is a
    URL, and opened as a local file otherwise. *)
Definition decodes (p : string) (image : Image) : Prop :=
  if startswith p ["http://"; "https://"]
  then requests_get_open_convert w p = Ok image
  else Image_open_convert w p = Ok image.

End Loading.

(** ** Concrete instances, clocks and worlds *)

Module Examples.

(** [0.01], [1.0] and [10.0]. *)
Definition hundredth : float := S754_finite false 5764607523034235 (-59).
Definition one : float := S754_finite false 4503599627370496 (-52).
Definition ten : float := S754_finite false 5629499534213120 (-49).

(** [BaseModel("m1", "cpu", "float16")], once built. *)
Definition m1 : BaseModel :=
  {| model_id := "m1"; device := "cpu"; dtype := DtypeTorch torch_float16;
     num_inferences := 0; total_inference_time := zero;
     average_latency := zero |}.

(** [m1] after a timed region of ten milliseconds and one counted
    inference. *)
Definition m1_used : BaseModel :=
  run [Track zero hundredth [] None; UpdateInferenceCount 1] m1.

Definition returns : BaseModel -> BaseModel * result unit :=
  fun self => (self, Ok tt).

Definition out_of_memory : exn :=
  Exception (OtherError "RuntimeError") "CUDA out of memory" None.

Definition raises : BaseModel -> BaseModel * result unit :=
  fun self => (self, Raise out_of_memory).

(** A decoded image, named after its source. *)
Inductive image := Decoded (source : string).

Definition no_such_file (p : string) : exn :=
  Exception FileNotFoundError
    ("[Errno 2] No such file or directory: '" +:+ p +:+ "'") None.

Definition unidentified (p : string) : exn :=
  Exception (OtherError "UnidentifiedImageError")
    ("cannot identify image file '" +:+ p +:+ "'") None.

(** A world in which [missing/file.png] does not exist, [corrupt.png]
    exists but is not an image, and everything else decodes. *)
Definition world : World image :=
  {| Image_open_convert := fun p =>
       if String.eqb p "missing/file.png" then Raise (no_such_file p)
       else if String.eqb p "corrupt.png" then Raise (unidentified p)
       else Ok (Decoded p);
     requests_get_open_convert := fun u => Ok (Decoded u) |}.

End Examples.

(** ** Accounting over sequences of calls *)

(** The counts handed to [update_inference_count] by a call and by the
    calls nested in it. *)
Fixpoint counted (o : op) : Z :=
  match o with
  | Track _ _ body _ => fold_right (fun o n => counted o + n) 0 body
  | UpdateInferenceCount count => count
  | PrintStats | Repr | ParseImages _ => 0
  end.

Definition counted_all (ops : list op) : Z :=
  fold_right (fun o n => counted o + n) 0 ops.

(** The elapsed times, in milliseconds, of the timed regions of a call,
    in the order in which the regions are left: a region nested in a
    block is left before the region that wraps the block. *)
Fixpoint elapsed_times (o : op) : list float :=
  match o with
  | Track start_time end_time body _ =>
      flat_map elapsed_times body
      ++ [mul (sub end_time start_time) (of_Z 1000)]
  | UpdateInferenceCount _ | PrintStats | Repr | ParseImages _ => []
  end.

(** The configuration held by an instance. *)
Definition config (self : BaseModel) : string * string * dtype_attr :=
  (model_id self, device self, dtype self).

(** ** Reading strings and reports *)

(** [s.endswith(suffix)]. *)
Definition endswith (s suffix : string) : bool :=
  String.eqb
    (substring (String.length s - String.length suffix)%nat
               (String.length suffix) s)
    suffix.

(** Two worlds give the same answer for the one source that
    [parse_images] consults for the element: the network for a URL, the
    file system for any other string, and nothing for a non-string. *)
Definition same_source {Image : Type} (w1 w2 : World Image) (x : pyobj) : Prop :=
  match x with
  | PyStr p =>
      if startswith p ["http://"; "https://"]
      then requests_get_open_convert w1 p = requests_get_open_convert w2 p
      else Image_open_convert w1 p = Image_open_convert w2 p
  | _ => True
  end.

Module Scenarios.

Definition connection_error (u : string) : exn :=
  Exception (OtherError "ConnectionError")
    ("Failed to establish a new connection: " +:+ u) None.

(** The files of [Examples.world], with the network down. *)
Definition offline : World Examples.image :=
  {| Image_open_convert := Image_open_convert Examples.world;
     requests_get_open_convert := fun u => Raise (connection_error u) |}.

(** A world whose HTTP layer itself reports a missing file. *)
Definition cache_miss : World Examples.image :=
  {| Image_open_convert := Image_open_convert Examples.world;
     requests_get_open_convert := fun u => Raise (Examples.no_such_file u) |}.

(** An instance whose counter is at the largest integer that still
    converts to a float. *)
Definition saturated : BaseModel :=
  {| model_id := "m1"; device := "cpu"; dtype := DtypeTorch torch_float16;
     num_inferences := 2 ^ 1024 - 2 ^ 970 - 1;
     total_inference_time := Examples.ten;
     average_latency := zero |}.

(** [a.jpg] is a regular file, so [a.jpg/child.png] does not exist:
    opening it raises [NotADirectoryError]. *)
Definition not_a_directory (p : string) : exn :=
  Exception (OtherError "NotADirectoryError")
    ("[Errno 20] Not a directory: '" +:+ p +:+ "'") None.

Definition nested : World Examples.image :=
  {| Image_open_convert := fun p =>
       if String.eqb p "a.jpg/child.png" then Raise (not_a_directory p)
       else Image_open_convert Examples.world p;
     requests_get_open_convert := requests_get_open_convert Examples.world |}.

(** A terminal that records the tables printed on it, with a console that
    rejects, as rich does, a value cell opening with a closing tag, and a
    float formatter for the two zeros. *)
Definition markup_error (cell : string) : exn :=
  Exception (OtherError "MarkupError")
    ("closing tag '" +:+ cell +:+ "' at position 0 doesn't match any open tag")
    None.

Definition recording : Reporting (list Table) :=
  {| int_max_str_digits := 4300;
     format_4f := fun x =>
       match x with
       | S754_zero false => "0.0000"
       | S754_zero true => "-0.0000"
       | _ => "..."
       end;
     console_print := fun table console =>
       match find (fun r => String.prefix "[/" (snd r)) (rows table) with
       | Some r => (console, Raise (markup_error (snd r)))
       | None => (console ++ [table], Ok tt)
       end |}.

End Scenarios.

(* ================================================================== *)
(** * Part II: facts about binary64 arithmetic                         *)
(* ================================================================== *)

Module Binary64Facts.

(** *** Shifting and rounding keep a mantissa non-negative *)

Lemma iter_pos_invariant {A : Type} (P : A -> Prop) (f : A -> A) :
  (forall x, P x -> P (f x)) ->
  forall (n : positive) (x : A), P x -> P (SpecFloat.iter_pos f n x).
Proof.
  intros Hf n. induction n as [n IH | n IH | ]; intros x Hx; simpl; auto.
Qed.

Lemma shr_1_nonneg (mrs : shr_record) :
  0 <= shr_m mrs -> 0 <= shr_m (shr_1 mrs).
Proof.
  destruct mrs as [m r s]. simpl.
  destruct m as [ | [p | p | ] | p ]; simpl; lia.
Qed.

Lemma shr_record_of_loc_m (m : Z) (l : location) :
  shr_m (shr_record_of_loc m l) = m.
Proof. destruct l as [ | [ | | ] ]; reflexivity. Qed.

Lemma shr_nonneg (mrs : shr_record) (e n : Z) :
  0 <= shr_m mrs -> 0 <= shr_m (fst (shr mrs e n)).
Proof.
  intros H. destruct n as [ | p | p ]; simpl; trivial.
  apply (iter_pos_invariant (fun x => 0 <= shr_m x)); auto using shr_1_nonneg.
Qed.

Lemma shr_fexp_nonneg (m e : Z) (l : location) :
  0 <= m -> 0 <= shr_m (fst (shr_fexp prec emax m e l)).
Proof.
  intros H. unfold shr_fexp. apply shr_nonneg.
  now rewrite shr_record_of_loc_m.
Qed.

Lemma round_nearest_even_ge (m : Z) (l : location) :
  m <= round_nearest_even m l <= m + 1.
Proof.
  destruct l as [ | [ | | ] ]; simpl; try lia.
  destruct (Z.even m); lia.
Qed.

Lemma binary_round_aux_sign (s : bool) (m e : Z) (l : location) :
  0 <= m -> has_sign s (binary_round_aux prec emax s m e l).
Proof.
  intros Hm. unfold binary_round_aux.
  destruct (shr_fexp prec emax m e l) as [mrs' e'] eqn:E1.
  destruct (shr_fexp prec emax _ e' loc_Exact) as [mrs'' e''] eqn:E2.
  assert (H1 : 0 <= shr_m mrs').
  { change mrs' with (fst (mrs', e')). rewrite <- E1. now apply shr_fexp_nonneg. }
  assert (H2 : 0 <= shr_m mrs'').
  { change mrs'' with (fst (mrs'', e'')). rewrite <- E2. apply shr_fexp_nonneg.
    pose proof (round_nearest_even_ge (shr_m mrs') (loc_of_shr_record mrs')). lia. }
  destruct (shr_m mrs'') as [ | p | p ]; simpl; trivial; try lia.
  destruct (_ <=? _); reflexivity.
Qed.

Lemma binary_round_sign (s : bool) (m : positive) (e : Z) :
  has_sign s (binary_round prec emax s m e).
Proof.
  unfold binary_round. destruct (shl_align _ _ _) as [mz ez].
  apply binary_round_aux_sign. lia.
Qed.

Lemma binary_normalize_nonneg (m e : Z) :
  0 <= m -> has_sign false (binary_normalize prec emax m e false).
Proof.
  intros H. destruct m as [ | p | p ]; simpl; trivial; try lia.
  apply binary_round_sign.
Qed.

Lemma has_sign_nonneg (x : float) : has_sign false x -> nonneg x = true.
Proof.
  destruct x as [s | s | | s m e]; simpl; intros H; try contradiction;
    subst; reflexivity.
Qed.


(** *** Digits, alignment and canonical mantissas *)

Lemma digits2_pos_size (m : positive) : digits2_pos m = Pos.size m.
Proof. induction m as [m IH | m IH | ]; simpl; congruence. Qed.

Lemma digits2_pos_log2 (m : positive) :
  Z.pos (digits2_pos m) = Z.log2 (Z.pos m) + 1.
Proof.
  rewrite digits2_pos_size.
  destruct m as [m | m | ]; simpl; try rewrite Pos2Z.inj_succ; lia.
Qed.

Lemma Zdigits2_log2 (m : Z) : 0 < m -> Zdigits2 m = Z.log2 m + 1.
Proof.
  destruct m as [ | p | p ]; try lia. intros _. apply digits2_pos_log2.
Qed.

Lemma digits2_pos_bounds (m : positive) :
  2 ^ (Z.pos (digits2_pos m) - 1) <= Z.pos m < 2 ^ Z.pos (digits2_pos m).
Proof.
  rewrite digits2_pos_log2.
  replace (Z.log2 (Z.pos m) + 1 - 1) with (Z.log2 (Z.pos m)) by lia.
  apply (Z.log2_spec (Z.pos m)). lia.
Qed.

Lemma iter_xO_pow2 (m d : positive) :
  Z.pos (Pos.iter xO m d) = Z.pos m * 2 ^ Z.pos d.
Proof.
  induction d as [ | d IH ] using Pos.peano_ind.
  - simpl. lia.
  - rewrite Pos.iter_succ, Pos2Z.inj_xO, IH, Pos2Z.inj_succ, Z.pow_succ_r; lia.
Qed.

Lemma shl_align_fst (m : positive) (e e' : Z) :
  e' <= e -> Z.pos (fst (shl_align m e e')) = Z.pos m * 2 ^ (e - e').
Proof.
  intros H. unfold shl_align. destruct (e' - e) as [ | d | d ] eqn:E; simpl.
  - replace (e - e') with 0 by lia. lia.
  - lia.
  - rewrite iter_xO_pow2. f_equal. f_equal. lia.
Qed.

Lemma canonical_mantissa_lt (m1 m2 : positive) (e1 e2 : Z) :
  canonical_mantissa prec emax m1 e1 = true ->
  canonical_mantissa prec emax m2 e2 = true ->
  e1 < e2 ->
  Z.pos m1 < Z.pos m2 * 2 ^ (e2 - e1).
Proof.
  unfold canonical_mantissa, fexp, SpecFloat.emin, prec, emax.
  intros H1 H2 Hlt. apply Z.eqb_eq in H1, H2.
  pose proof (digits2_pos_bounds m1) as [_ B1].
  pose proof (digits2_pos_bounds m2) as [B2 _].
  set (d1 := Z.pos (digits2_pos m1)) in *.
  set (d2 := Z.pos (digits2_pos m2)) in *.
  assert (Hd : d1 <= (d2 - 1) + (e2 - e1)) by lia.
  assert (Hd2 : 0 <= d2 - 1) by (subst d2; lia).
  apply (Z.pow_le_mono_r 2) in Hd; [ | lia ].
  rewrite Z.pow_add_r in Hd by lia.
  assert (0 < 2 ^ (e2 - e1)) by (apply Z.pow_pos_nonneg; lia).
  nia.
Qed.

(** *** Sums, products and differences that are not negative *)

Lemma nonneg_cases (x : float) :
  nonneg x = true ->
  (exists s, x = S754_zero s) \/ x = S754_infinity false \/
  (exists m e, x = S754_finite false m e).
Proof.
  destruct x as [s | [ | ] | | [ | ] m e]; simpl; intros H;
    try discriminate; eauto.
Qed.

Lemma add_nonneg (x y : float) :
  nonneg x = true -> nonneg y = true -> nonneg (add x y) = true.
Proof.
  intros Hx Hy.
  destruct (nonneg_cases x Hx) as [[sx ->] | [-> | (mx & ex & ->)]];
    destruct (nonneg_cases y Hy) as [[sy ->] | [-> | (my & ey & ->)]];
    try reflexivity.
  - destruct sx, sy; reflexivity.
  - apply has_sign_nonneg. unfold add, SFadd.
    apply binary_normalize_nonneg. simpl. lia.
Qed.

Lemma mul_nonneg_finite (x : float) (m : positive) (e : Z) :
  nonneg x = true -> nonneg (mul x (S754_finite false m e)) = true.
Proof.
  intros Hx.
  destruct (nonneg_cases x Hx) as [[sx ->] | [-> | (mx & ex & ->)]];
    try reflexivity.
  apply has_sign_nonneg. unfold mul, SFmul.
  apply binary_round_aux_sign. lia.
Qed.

Lemma sub_nonneg (x y : float) :
  is_finite x = true -> valid x = true ->
  is_finite y = true -> valid y = true ->
  leb y x = true ->
  nonneg (sub x y) = true.
Proof.
  destruct x as [sx | sx | | sx mx ex]; try discriminate;
    destruct y as [sy | sy | | sy my ey]; try discriminate;
    intros _ Vx _ Vy Hle.
  - destruct sx, sy; reflexivity.
  - destruct sy; [ reflexivity | discriminate ].
  - destruct sx; [ discriminate | reflexivity ].
  - apply has_sign_nonneg. unfold sub, SFsub.
    apply binary_normalize_nonneg.
    unfold valid, valid_binary, bounded in Vx, Vy.
    apply andb_prop in Vx as [Cx _]. apply andb_prop in Vy as [Cy _].
    rewrite !shl_align_fst by lia.
    unfold leb, SFleb, SFcompare in Hle.
    destruct sx, sy; simpl; try discriminate; try lia.
    + (* both negative *)
      destruct (Z.compare_spec ey ex) as [E | E | E]; try discriminate.
      * subst ey. rewrite Z.min_id, Z.sub_diag. simpl.
        change (PosDef.Pos.compare_cont Eq my mx) with (my ?= mx)%positive in Hle.
        destruct (Pos.compare_spec my mx) as [C | C | C];
          try discriminate; lia.
      * pose proof (canonical_mantissa_lt _ _ _ _ Cx Cy E).
        rewrite Z.min_l by lia. rewrite Z.sub_diag. simpl. lia.
    + (* both positive *)
      destruct (Z.compare_spec ey ex) as [E | E | E]; try discriminate.
      * subst ey. rewrite Z.min_id, Z.sub_diag. simpl.
        change (PosDef.Pos.compare_cont Eq my mx) with (my ?= mx)%positive in Hle.
        destruct (Pos.compare_spec my mx) as [C | C | C];
          try discriminate; lia.
      * pose proof (canonical_mantissa_lt _ _ _ _ Cy Cx E).
        rewrite Z.min_r by lia. rewrite Z.sub_diag. simpl. lia.
Qed.


(** *** Rounding a number that is not too small does not give zero *)

Lemma shr_1_div2 (mrs : shr_record) :
  0 <= shr_m mrs -> shr_m (shr_1 mrs) = shr_m mrs / 2.
Proof.
  destruct mrs as [m r s]. simpl.
  destruct m as [ | [p | p | ] | p ]; cbn [shr_1 shr_m]; intros H;
    try lia; Z.div_mod_to_equations; lia.
Qed.

Lemma iter_shr_1_div (n : positive) (mrs : shr_record) :
  0 <= shr_m mrs ->
  shr_m (SpecFloat.iter_pos shr_1 n mrs) = shr_m mrs / 2 ^ Z.pos n.
Proof.
  revert mrs. induction n as [n IH | n IH | ]; intros mrs H;
    cbn [SpecFloat.iter_pos].
  - assert (Hpow : 0 < 2 ^ Z.pos n) by (apply Z.pow_pos_nonneg; lia).
    assert (H1 : 0 <= shr_m (shr_1 mrs)) by now apply shr_1_nonneg.
    assert (H2 : 0 <= shr_m (SpecFloat.iter_pos shr_1 n (shr_1 mrs))).
    { rewrite IH by trivial. apply Z.div_pos; lia. }
    rewrite IH, IH, shr_1_div2 by trivial.
    replace (Z.pos n~1) with (1 + Z.pos n + Z.pos n) by lia.
    rewrite !Z.pow_add_r by lia. change (2 ^ 1) with 2.
    rewrite !Z.div_div by lia. f_equal; lia.
  - assert (Hpow : 0 < 2 ^ Z.pos n) by (apply Z.pow_pos_nonneg; lia).
    assert (H2 : 0 <= shr_m (SpecFloat.iter_pos shr_1 n mrs)).
    { rewrite IH by trivial. apply Z.div_pos; lia. }
    rewrite IH, IH by trivial.
    replace (Z.pos n~0) with (Z.pos n + Z.pos n) by lia.
    rewrite !Z.pow_add_r by lia.
    rewrite !Z.div_div by lia. f_equal; lia.
  - rewrite shr_1_div2 by trivial. reflexivity.
Qed.

Lemma shr_fexp_pos (m e : Z) (l : location) :
  0 < m -> SpecFloat.emin prec emax < Zdigits2 m + e ->
  0 < shr_m (fst (shr_fexp prec emax m e l)) /\
  Zdigits2 m + e <=
    Zdigits2 (shr_m (fst (shr_fexp prec emax m e l)))
    + snd (shr_fexp prec emax m e l).
Proof.
  intros Hm He. unfold shr_fexp, shr.
  rewrite (Zdigits2_log2 m Hm) in *.
  destruct (fexp prec emax (Z.log2 m + 1 + e) - e) as [ | p | p ] eqn:E;
    simpl; rewrite ?shr_record_of_loc_m, ?(Zdigits2_log2 m Hm); try lia.
  rewrite iter_shr_1_div by (rewrite shr_record_of_loc_m; lia).
  rewrite shr_record_of_loc_m.
  assert (Hp : Z.pos p <= Z.log2 m).
  { unfold fexp, SpecFloat.emin, prec, emax in *. lia. }
  assert (Hpow : 2 ^ Z.pos p <= m).
  { apply Z.log2_le_pow2; lia. }
  assert (Hq : 0 < m / 2 ^ Z.pos p).
  { apply Z.div_str_pos. split; [ apply Z.pow_pos_nonneg; lia | trivial ]. }
  split; trivial.
  rewrite (Zdigits2_log2 _ Hq).
  rewrite <- Z.shiftr_div_pow2 by lia.
  rewrite Z.log2_shiftr by trivial. lia.
Qed.

Lemma binary_round_aux_nonzero (s : bool) (m e : Z) (l : location) :
  0 < m -> SpecFloat.emin prec emax < Zdigits2 m + e ->
  nonzero_sign s (binary_round_aux prec emax s m e l).
Proof.
  intros Hm He. unfold binary_round_aux.
  destruct (shr_fexp_pos m e l Hm He) as [P1 D1].
  destruct (shr_fexp prec emax m e l) as [mrs' e']. simpl in P1, D1.
  pose proof (round_nearest_even_ge (shr_m mrs') (loc_of_shr_record mrs')) as R.
  set (m2 := round_nearest_even (shr_m mrs') (loc_of_shr_record mrs')) in *.
  assert (P2 : 0 < m2) by lia.
  assert (D2 : SpecFloat.emin prec emax < Zdigits2 m2 + e').
  { rewrite (Zdigits2_log2 _ P2). rewrite (Zdigits2_log2 _ P1) in D1.
    pose proof (Z.log2_le_mono (shr_m mrs') m2). lia. }
  destruct (shr_fexp_pos m2 e' loc_Exact P2 D2) as [P3 _].
  destruct (shr_fexp prec emax m2 e' loc_Exact) as [mrs'' e'']. simpl in P3.
  destruct (shr_m mrs'') as [ | p | p ]; try lia.
  destruct (_ <=? _); reflexivity.
Qed.

Lemma binary_round_nonzero (s : bool) (m : positive) (e : Z) :
  SpecFloat.emin prec emax < Z.pos (digits2_pos m) + e ->
  nonzero_sign s (binary_round prec emax s m e).
Proof.
  intros He. unfold binary_round, shl_align.
  destruct (fexp prec emax (Z.pos (digits2_pos m) + e) - e) as [ | d | d ] eqn:E;
    apply binary_round_aux_nonzero; try lia; simpl; trivial.
  rewrite !digits2_pos_log2 in *. rewrite iter_xO_pow2.
  rewrite Z.log2_mul_pow2 by lia. lia.
Qed.

Lemma of_Z_nonzero (z : Z) : z <> 0 -> nonzero_sign (z <? 0) (of_Z z).
Proof.
  intros Hz. unfold of_Z, binary_normalize.
  destruct z as [ | p | p ]; try contradiction;
    apply binary_round_nonzero; unfold SpecFloat.emin, prec, emax; lia.
Qed.

End Binary64Facts.

(* ================================================================== *)
(** * Part III: facts about the class                                  *)
(* ================================================================== *)

Import Binary64Facts.

(** ** Conversions and division *)

Lemma int_to_float_ok (n : Z) :
  is_infinity (of_Z n) = false -> int_to_float n = Ok (of_Z n).
Proof. intros H. unfold int_to_float. now rewrite H. Qed.

Lemma int_to_float_overflow (n : Z) :
  is_infinity (of_Z n) = true ->
  int_to_float n =
    Raise (Exception OverflowError "int too large to convert to float" None).
Proof. intros H. unfold int_to_float. now rewrite H. Qed.

(** The float of an integer other than zero is not zero, so that dividing
    by it never raises [ZeroDivisionError]. *)
Lemma of_Z_eqb_zero (n : Z) : n <> 0 -> eqb (of_Z n) zero = false.
Proof.
  intros H. pose proof (of_Z_nonzero n H) as S.
  destruct (of_Z n) as [s | s | | s m e]; simpl in S; try contradiction.
  - destruct s; reflexivity.
  - destruct s; reflexivity.
Qed.

Lemma float_truediv_int_ok (a : float) (n : Z) :
  n <> 0 -> is_infinity (of_Z n) = false ->
  float_truediv_int a n = Ok (div a (of_Z n)).
Proof.
  intros Hn Hfin. unfold float_truediv_int.
  rewrite (int_to_float_ok n Hfin). simpl.
  unfold float_truediv. now rewrite (of_Z_eqb_zero n Hn).
Qed.

Lemma float_truediv_int_overflow (a : float) (n : Z) :
  is_infinity (of_Z n) = true ->
  float_truediv_int a n =
    Raise (Exception OverflowError "int too large to convert to float" None).
Proof.
  intros H. unfold float_truediv_int. now rewrite (int_to_float_overflow n H).
Qed.

(** ** [update_inference_count] *)

Lemma update_inference_count_num (self : BaseModel) (count : Z) :
  num_inferences (fst (update_inference_count self count))
  = num_inferences self + count.
Proof.
  unfold update_inference_count. cbn [num_inferences set_num_inferences].
  destruct (negb _); [ destruct (float_truediv_int _ _) | ]; reflexivity.
Qed.

Lemma update_inference_count_total (self : BaseModel) (count : Z) :
  total_inference_time (fst (update_inference_count self count))
  = total_inference_time self.
Proof.
  unfold update_inference_count. cbn [num_inferences set_num_inferences].
  destruct (negb _); [ destruct (float_truediv_int _ _) | ]; reflexivity.
Qed.

Lemma update_inference_count_returns (self : BaseModel) (count : Z) :
  is_infinity (of_Z (num_inferences self + count)) = false ->
  update_inference_count self count =
    (set_average_latency
       (set_num_inferences self (num_inferences self + count))
       (if num_inferences self + count =? 0 then zero
        else div (total_inference_time self)
                 (of_Z (num_inferences self + count))),
     Ok tt).
Proof.
  intros Hfin. unfold update_inference_count.
  cbn [num_inferences set_num_inferences total_inference_time].
  destruct (Z.eqb_spec (num_inferences self + count) 0) as [E | E]; simpl.
  - reflexivity.
  - now rewrite (float_truediv_int_ok _ _ E Hfin).
Qed.

(** When the new counter is too large for a float, the division raises:
    the counter has been stored and the average is left as it was. *)
Lemma update_inference_count_raises (self : BaseModel) (count : Z) :
  is_infinity (of_Z (num_inferences self + count)) = true ->
  update_inference_count self count =
    (set_num_inferences self (num_inferences self + count),
     Raise (Exception OverflowError "int too large to convert to float" None)).
Proof.
  intros Hinf. unfold update_inference_count.
  cbn [num_inferences set_num_inferences total_inference_time].
  destruct (Z.eqb_spec (num_inferences self + count) 0) as [E | E]; simpl.
  - rewrite E in Hinf. discriminate.
  - now rewrite (float_truediv_int_overflow _ _ Hinf).
Qed.

(** C1, amended: whenever the new counter [n + c] converts to a float
    (it is not beyond the binary64 range), [update_inference_count c]
    returns, sets [num_inferences] to [n + c] and sets [average_latency]
    to the binary64 quotient [T / (n + c)], or to [0.0] if [n + c == 0];
    [total_inference_time] is not changed. *)
Theorem update_inference_count_sets_average (self : BaseModel) (count : Z) :
  is_infinity (of_Z (num_inferences self + count)) = false ->
  snd (update_inference_count self count) = Ok tt /\
  update_inference_count_claim self count /\
  total_inference_time (fst (update_inference_count self count))
  = total_inference_time self.
Proof.
  intros Hfin. unfold update_inference_count_claim.
  rewrite (update_inference_count_returns self count Hfin). simpl. auto.
Qed.

Lemma update_inference_count_sets_average_witness :
  is_infinity (of_Z (num_inferences Examples.m1_used + 1)) = false /\
  (snd (update_inference_count Examples.m1_used 1) = Ok tt /\
   update_inference_count_claim Examples.m1_used 1 /\
   total_inference_time (fst (update_inference_count Examples.m1_used 1))
   = total_inference_time Examples.m1_used).
Proof.
  split.
  - reflexivity.
  - apply (update_inference_count_sets_average Examples.m1_used 1). reflexivity.
Defined.

(** C1 fails as stated: with the counter at 1 and an average of 10.0, a
    count of [2^1024] makes the division raise [OverflowError]; the
    average stays 10.0 instead of becoming [10.0 / inf = 0.0]. *)
Lemma update_inference_count_overflow_counterexample :
  ~ update_inference_count_claim Examples.m1_used (2 ^ 1024).
Proof.
  unfold update_inference_count_claim.
  rewrite update_inference_count_raises by reflexivity.
  intros [_ H]. vm_compute in H. discriminate H.
Qed.

(** ** The timed region *)

Lemma track_inference_time_unfold {A : Type} (self : BaseModel)
    (start_time end_time : float) (body : BaseModel -> BaseModel * result A) :
  track_inference_time self start_time end_time body =
    (set_total_inference_time (fst (body self))
       (add (total_inference_time (fst (body self)))
            (mul (sub end_time start_time) (of_Z 1000))),
     snd (body self)).
Proof. unfold track_inference_time. destruct (body self). reflexivity. Qed.

(** The duration measured by a monotonic clock is not negative. *)
Lemma elapsed_nonneg (start_time end_time : float) :
  monotonic start_time end_time = true ->
  nonneg (mul (sub end_time start_time) (of_Z 1000)) = true.
Proof.
  unfold monotonic. rewrite !andb_true_iff.
  intros [[[[F0 V0] F1] V1] Hle].
  change (of_Z 1000) with (S754_finite false 8796093022208000 (-43)).
  apply mul_nonneg_finite. now apply sub_nonneg.
Qed.

(** C2 fails as stated: [m1_used] is consistent, and a further timed
    region of ten milliseconds adds to the total without recomputing the
    average, which is then stale. *)
Lemma track_inference_time_stale_counterexample :
  consistent Examples.m1_used /\
  ~ consistent
      (fst (track_inference_time Examples.m1_used zero Examples.hundredth
              Examples.returns)).
Proof.
  split.
  - reflexivity.
  - intros H. vm_compute in H. discriminate H.
Qed.

(** C2, amended: immediately after every [update_inference_count] that
    returns and leaves the counter non-negative, [average_latency] equals
    [total_inference_time / num_inferences] when [num_inferences > 0] and
    [0.0] otherwise. The close of the timed region is not such a point:
    it does not recompute [average_latency], which keeps the value the
    wrapped block left. *)
Theorem average_latency_consistent_after_update (self : BaseModel) (count : Z) :
  0 <= num_inferences self + count ->
  snd (update_inference_count self count) = Ok tt ->
  consistent (fst (update_inference_count self count)) /\
  forall (A : Type) (start_time end_time : float)
         (body : BaseModel -> BaseModel * result A),
    average_latency (fst (track_inference_time self start_time end_time body))
    = average_latency (fst (body self)).
Proof.
  intros Hn Hret. split.
  - destruct (is_infinity (of_Z (num_inferences self + count))) eqn:Hinf.
    + rewrite (update_inference_count_raises self count Hinf) in Hret.
      discriminate Hret.
    + rewrite (update_inference_count_returns self count Hinf).
      unfold consistent. simpl.
      destruct (Z.eqb_spec (num_inferences self + count) 0) as [E | E].
      * rewrite E. reflexivity.
      * destruct (Z.ltb_spec 0 (num_inferences self + count)); [ reflexivity | lia ].
  - intros A start_time end_time body.
    rewrite track_inference_time_unfold. reflexivity.
Qed.

Lemma average_latency_consistent_after_update_witness :
  0 <= num_inferences Examples.m1_used + 2 /\
  snd (update_inference_count Examples.m1_used 2) = Ok tt /\
  consistent (fst (update_inference_count Examples.m1_used 2)).
Proof.
  split; [ | split ].
  - vm_compute. discriminate.
  - reflexivity.
  - apply (average_latency_consistent_after_update Examples.m1_used 2).
    + vm_compute. discriminate.
    + reflexivity.
Defined.

(** C4: whether the wrapped block returns or raises, the region adds the
    elapsed time in milliseconds, which is not negative, to
    [total_inference_time]; it does not change [num_inferences], and the
    block's outcome is passed on. *)
Theorem track_inference_time_adds_elapsed {A : Type} (self : BaseModel)
    (start_time end_time : float) (body : BaseModel -> BaseModel * result A) :
  monotonic start_time end_time = true ->
  let elapsed := mul (sub end_time start_time) (of_Z 1000) in
  let after := fst (track_inference_time self start_time end_time body) in
  nonneg elapsed = true /\
  total_inference_time after
  = add (total_inference_time (fst (body self))) elapsed /\
  num_inferences after = num_inferences (fst (body self)) /\
  snd (track_inference_time self start_time end_time body) = snd (body self).
Proof.
  intros Hclock elapsed after. subst elapsed after.
  rewrite track_inference_time_unfold. simpl.
  split; [ now apply elapsed_nonneg | auto ].
Qed.

Lemma track_inference_time_adds_elapsed_witness :
  monotonic zero Examples.hundredth = true /\
  total_inference_time
    (fst (track_inference_time Examples.m1_used zero Examples.hundredth
            Examples.raises))
  = add (total_inference_time Examples.m1_used) Examples.ten /\
  snd (track_inference_time Examples.m1_used zero Examples.hundredth
         Examples.raises)
  = Raise Examples.out_of_memory.
Proof.
  split; [ reflexivity | ].
  destruct (track_inference_time_adds_elapsed Examples.m1_used zero
              Examples.hundredth Examples.raises eq_refl)
    as (_ & Htotal & _ & Hout).
  split; [ exact Htotal | exact Hout ].
Defined.

(** ** Construction *)

Lemma dtype_map_lookup (dtype : string) :
  dtype_map !! dtype =
    if decide (dtype = "float32") then Some torch_float32
    else if decide (dtype = "float16") then Some torch_float16
    else if decide (dtype = "bfloat16") then Some torch_bfloat16
    else None.
Proof.
  unfold dtype_map.
  repeat case_decide; subst; try reflexivity.
  rewrite !lookup_insert_ne by congruence. apply lookup_empty.
Qed.

(** C3: construction succeeds exactly for ["float32"], ["float16"] and
    ["bfloat16"], and the instance then holds the model id, the device,
    the mapped torch dtype and zeroed statistics; for every other string
    it raises [ValueError] with a message that names the three allowed
    values, and there is no instance. *)
Theorem init_validates_dtype (model_id device dtype : string)
    (log : list log_entry) :
  let built d :=
    Ok {| model_id := model_id; device := device; dtype := DtypeTorch d;
          num_inferences := 0; total_inference_time := zero;
          average_latency := zero |} in
  snd (__init__ model_id device dtype log) =
    (if decide (dtype = "float32") then built torch_float32
     else if decide (dtype = "float16") then built torch_float16
     else if decide (dtype = "bfloat16") then built torch_bfloat16
     else Raise (Exception ValueError dtype_error_msg None)) /\
  mentions dtype_error_msg "'float32'" = true /\
  mentions dtype_error_msg "'float16'" = true /\
  mentions dtype_error_msg "'bfloat16'" = true.
Proof.
  intros built. split; [ | repeat split ].
  unfold __init__. rewrite dtype_map_lookup.
  repeat case_decide; reflexivity.
Qed.

(** C10: whatever the dtype string, supported or not, construction has
    appended the three entries for the model id, the device and the dtype
    to the log, in this order; a construction that raises has logged all
    three. *)
Theorem init_logs_before_validation (model_id device dtype : string)
    (log : list log_entry) :
  fst (__init__ model_id device dtype log) =
    log ++ [ {| level := INFO; message := "Model: " +:+ model_id |};
             {| level := INFO; message := "Device: " +:+ device |};
             {| level := INFO; message := "Dtype: " +:+ dtype |} ].
Proof.
  unfold __init__, logger_info.
  destruct (dtype_map !! dtype); simpl; now rewrite <- !app_assoc.
Qed.

Example init_logs_then_raises :
  __init__ "m1" "cpu" "float64" [] =
    ([ {| level := INFO; message := "Model: m1" |};
       {| level := INFO; message := "Device: cpu" |};
       {| level := INFO; message := "Dtype: float64" |} ],
     Raise (Exception ValueError dtype_error_msg None)).
Proof. reflexivity. Qed.

(** ** [parse_images] *)

Section ParseImagesFacts.

Context {Image : Type} (w : World Image).

Lemma parse_images_elements (images : pyobj) :
  parse_images w images = parse_images_loop w (elements images) [].
Proof. destruct images; reflexivity. Qed.

Lemma load_image_decodes (p : string) (image : Image) :
  load_image w p = Ok image -> decodes w p image.
Proof.
  unfold load_image, decodes.
  destruct (startswith p _); [ trivial | ].
  destruct (Image_open_convert w p) as [i | e]; [ trivial | ].
  destruct (is_FileNotFoundError e); discriminate.
Qed.

(** A successful loop has appended one decoded image per reference, in
    the order of the references. *)
Lemma parse_images_loop_ok (refs : list string) :
  forall parsed_images result,
    parse_images_loop w (map PyStr refs) parsed_images = Ok result ->
    exists images,
      result = parsed_images ++ images /\ Forall2 (decodes w) refs images.
Proof.
  induction refs as [ | p refs IH ]; intros parsed_images result H; simpl in H.
  - injection H as <-. exists []. split; [ now rewrite app_nil_r | constructor ].
  - destruct (load_image w p) as [image | e] eqn:L; simpl in H; [ | discriminate ].
    destruct (IH _ _ H) as (images & -> & HF).
    exists (image :: images). split.
    + now rewrite <- app_assoc.
    + constructor; [ now apply load_image_decodes | exact HF ].
Qed.

(** Elements that load are passed over. *)
Lemma parse_images_loop_loads (pre rest : list pyobj) :
  forallb (loads w) pre = true ->
  forall parsed_images,
    exists images,
      parse_images_loop w (pre ++ rest) parsed_images
      = parse_images_loop w rest (parsed_images ++ images).
Proof.
  induction pre as [ | x pre IH ]; intros Hpre parsed_images.
  - exists []. now rewrite app_nil_r.
  - simpl in Hpre. apply andb_prop in Hpre as [Hx Hpre].
    destruct x as [ | | | p | | ]; try discriminate. simpl in Hx |- *.
    destruct (load_image w p) as [image | e]; [ | discriminate ]. simpl.
    destruct (IH Hpre (parsed_images ++ [image])) as [images E].
    exists (image :: images). rewrite E. now rewrite <- app_assoc.
Qed.

(** Elements that load or raise [ValueError] are passed over or end the
    call with a [ValueError]. *)
Lemma parse_images_loop_invalid (pre rest : list pyobj) :
  forallb (loads_or_invalid w) pre = true ->
  (forall parsed_images,
      exists e, parse_images_loop w rest parsed_images = Raise e
                /\ is_ValueError e = true) ->
  forall parsed_images,
    exists e, parse_images_loop w (pre ++ rest) parsed_images = Raise e
              /\ is_ValueError e = true.
Proof.
  intros Hpre Hrest.
  induction pre as [ | x pre IH ]; intros parsed_images; [ apply Hrest | ].
  simpl in Hpre. apply andb_prop in Hpre as [Hx Hpre].
  destruct x as [ | | | p | | ]; simpl; try (eexists; split; reflexivity).
  simpl in Hx. destruct (load_image w p) as [image | e]; simpl.
  - apply IH, Hpre.
  - exists e. auto.
Qed.

(** C5: when [parse_images] succeeds on a list of strings, the result
    has the length of the input, and the image at each position is the
    decoding of the reference at that position: fetched if it is a URL,
    opened as a local file otherwise. *)
Theorem parse_images_keeps_order (refs : list string) (images : list Image) :
  parse_images w (PyList (map PyStr refs)) = Ok images ->
  length images = length refs /\ Forall2 (decodes w) refs images.
Proof.
  intros H. unfold parse_images in H.
  destruct (parse_images_loop_ok refs [] images H) as (images' & -> & HF).
  simpl. split; [ symmetry; eapply Forall2_length; eassumption | exact HF ].
Qed.

(** C6: for a string [s], [parse_images(s)] and [parse_images([s])] are
    the same call: both return the one-element list holding the image
    loaded from [s], or both raise what loading [s] raises. *)
Theorem parse_images_single (s : string) :
  parse_images w (PyStr s) = parse_images w (PyList [PyStr s]) /\
  parse_images w (PyStr s) =
    match load_image w s with
    | Ok image => Ok [image]
    | Raise e => Raise e
    end.
Proof.
  split; [ reflexivity | ].
  unfold parse_images. simpl. destruct (load_image w s); reflexivity.
Qed.


(** C8, amended: when a string element is not an http(s) URL and opening
    it raises [FileNotFoundError], and no element before it raises a
    lower-level I/O or decoding error, the call raises [ValueError];
    when every element before it loads, that [ValueError] names the
    path and has the [FileNotFoundError] as its context. A path that
    fails to open with any other exception, [NotADirectoryError]
    included, is outside this statement: that exception propagates. *)
Theorem parse_images_missing_file (images : pyobj)
    (pre : list pyobj) (p : string) (post : list pyobj) (cause : exn) :
  elements images = pre ++ PyStr p :: post ->
  startswith p ["http://"; "https://"] = false ->
  Image_open_convert w p = Raise cause ->
  is_FileNotFoundError cause = true ->
  forallb (loads_or_invalid w) pre = true ->
  exists e,
    parse_images w images = Raise e /\ is_ValueError e = true /\
    (forallb (loads w) pre = true ->
     e = Exception ValueError ("Local file not found: " +:+ p) (Some cause)).
Proof.
  intros Hel Hurl Hopen Hcause Hpre.
  assert (Hload : load_image w p =
            Raise (Exception ValueError ("Local file not found: " +:+ p)
                     (Some cause))).
  { unfold load_image. now rewrite Hurl, Hopen, Hcause. }
  assert (Hrest : forall parsed_images,
             parse_images_loop w (PyStr p :: post) parsed_images =
               Raise (Exception ValueError ("Local file not found: " +:+ p)
                        (Some cause))).
  { intros parsed_images. simpl. now rewrite Hload. }
  destruct (parse_images_loop_invalid pre (PyStr p :: post) Hpre) with
    (parsed_images := @nil Image) as (e & He & Hv).
  { intros parsed_images. eexists. split; [ apply Hrest | reflexivity ]. }
  exists e. rewrite parse_images_elements, Hel. repeat split; trivial.
  intros Hloads.
  destruct (parse_images_loop_loads pre (PyStr p :: post) Hloads [])
    as [loaded E].
  rewrite E, Hrest in He. now injection He.
Qed.

End ParseImagesFacts.

(** C5 applies: a local path and a URL, decoded in the order given. *)
Lemma parse_images_keeps_order_witness :
  parse_images Examples.world
    (PyList (map PyStr ["a.jpg"; "https://example.com/b.png"]))
  = Ok [Examples.Decoded "a.jpg"; Examples.Decoded "https://example.com/b.png"]
  /\ length [Examples.Decoded "a.jpg"; Examples.Decoded "https://example.com/b.png"]
     = length ["a.jpg"; "https://example.com/b.png"]
  /\ Forall2 (decodes Examples.world)
       ["a.jpg"; "https://example.com/b.png"]
       [Examples.Decoded "a.jpg"; Examples.Decoded "https://example.com/b.png"].
Proof.
  split; [ reflexivity | ].
  apply (parse_images_keeps_order Examples.world
           ["a.jpg"; "https://example.com/b.png"]).
  reflexivity.
Defined.



(** C8 fails as stated, in two ways. First, [missing/file.png] does not
    exist, but the element before it is a file that is not an image; the
    call raises [UnidentifiedImageError] and never reaches the missing
    file. Second, [a.jpg/child.png] does not exist either, because
    [a.jpg] is a regular file; opening it raises [NotADirectoryError],
    which the [except FileNotFoundError] clause does not catch, and the
    call raises it unchanged even though it is the only element. *)
Lemma parse_images_missing_file_counterexample :
  (let images := PyList [PyStr "corrupt.png"; PyStr "missing/file.png"] in
   In (PyStr "missing/file.png") (elements images) /\
   startswith "missing/file.png" ["http://"; "https://"] = false /\
   Image_open_convert Examples.world "missing/file.png"
   = Raise (Examples.no_such_file "missing/file.png") /\
   parse_images Examples.world images
   = Raise (Examples.unidentified "corrupt.png") /\
   ~ exists e, parse_images Examples.world images = Raise e
               /\ is_ValueError e = true) /\
  (let images := PyList [PyStr "a.jpg/child.png"] in
   In (PyStr "a.jpg/child.png") (elements images) /\
   startswith "a.jpg/child.png" ["http://"; "https://"] = false /\
   Image_open_convert Scenarios.nested "a.jpg/child.png"
   = Raise (Scenarios.not_a_directory "a.jpg/child.png") /\
   parse_images Scenarios.nested images
   = Raise (Scenarios.not_a_directory "a.jpg/child.png") /\
   ~ exists e, parse_images Scenarios.nested images = Raise e
               /\ is_ValueError e = true).
Proof.
  split; simpl; repeat split; auto;
    intros (e & He & Hv); vm_compute in He; injection He as <-;
    discriminate Hv.
Qed.

Lemma parse_images_missing_file_witness :
  exists e,
    parse_images Examples.world (PyList [PyStr "a.jpg"; PyStr "missing/file.png"])
    = Raise e /\ is_ValueError e = true /\
    (forallb (loads Examples.world) [PyStr "a.jpg"] = true ->
     e = Exception ValueError "Local file not found: missing/file.png"
           (Some (Examples.no_such_file "missing/file.png"))).
Proof.
  apply (parse_images_missing_file Examples.world
           (PyList [PyStr "a.jpg"; PyStr "missing/file.png"])
           [PyStr "a.jpg"] "missing/file.png" []
           (Examples.no_such_file "missing/file.png")); reflexivity.
Defined.

(** ** The statistics are never negative *)

Lemma op_ind_nested (P : op -> Prop) :
  (forall start_time end_time body exc,
      Forall P body -> P (Track start_time end_time body exc)) ->
  (forall count, P (UpdateInferenceCount count)) ->
  P PrintStats -> P Repr ->
  (forall images, P (ParseImages images)) ->
  forall o, P o.
Proof.
  intros HT HU HP HR HI. fix IH 1.
  intros [start_time end_time body exc | count | | | images].
  - apply HT. induction body as [ | o body IHbody ]; constructor.
    + apply IH.
    + exact IHbody.
  - apply HU.
  - exact HP.
  - exact HR.
  - apply HI.
Qed.

Lemma run_app (ops1 ops2 : list op) (self : BaseModel) :
  run (ops1 ++ ops2) self = run ops2 (run ops1 self).
Proof. unfold run. apply fold_left_app. Qed.

Lemma run_stats_nonneg_from (ops : list op) :
  Forall (fun o => well_formed o = true ->
                   forall self, stats_nonneg self -> stats_nonneg (run_op o self)) ops ->
  forallb well_formed ops = true ->
  forall self, stats_nonneg self -> stats_nonneg (run ops self).
Proof.
  induction 1 as [ | o ops Ho _ IH ]; intros Hwf self Hself; [ exact Hself | ].
  simpl in Hwf. apply andb_prop in Hwf as [Hwo Hwf].
  unfold run. simpl. apply IH; auto.
Qed.

Lemma run_op_stats_nonneg (o : op) :
  well_formed o = true ->
  forall self, stats_nonneg self -> stats_nonneg (run_op o self).
Proof.
  induction o as [start_time end_time body exc IHbody | count | | | images]
    using op_ind_nested; intros Hwf self Hself; trivial.
  - simpl in Hwf. apply andb_prop in Hwf as [Hclock Hbody].
    cbn [run_op]. rewrite track_inference_time_unfold. cbn [fst].
    destruct (run_stats_nonneg_from body IHbody Hbody self Hself) as [Hn Ht].
    split; simpl.
    + exact Hn.
    + apply add_nonneg; [ exact Ht | now apply elapsed_nonneg ].
  - simpl in Hwf. apply Z.ltb_lt in Hwf. destruct Hself as [Hn Ht].
    cbn [run_op]. split.
    + rewrite update_inference_count_num. lia.
    + rewrite update_inference_count_total. exact Ht.
Qed.

Lemma run_stats_nonneg (ops : list op) (self : BaseModel) :
  forallb well_formed ops = true ->
  stats_nonneg self -> stats_nonneg (run ops self).
Proof.
  intros Hwf Hself. apply run_stats_nonneg_from; trivial.
  apply Forall_forall. intros o _. apply run_op_stats_nonneg.
Qed.

(** C9: a constructed instance has [num_inferences = 0] and
    [total_inference_time = 0.0], and after any sequence of calls of the
    class's operations, with positive counts and a monotonic clock, both
    are still not negative. *)
Theorem stats_start_at_zero_and_stay_nonneg (model_id device dtype : string)
    (log log' : list log_entry) (self : BaseModel) (ops : list op) :
  __init__ model_id device dtype log = (log', Ok self) ->
  forallb well_formed ops = true ->
  num_inferences self = 0 /\ total_inference_time self = zero /\
  0 <= num_inferences (run ops self) /\
  nonneg (total_inference_time (run ops self)) = true.
Proof.
  intros Hinit Hwf.
  assert (H0 : num_inferences self = 0 /\ total_inference_time self = zero).
  { unfold __init__ in Hinit. destruct (dtype_map !! dtype); [ | discriminate ].
    injection Hinit as _ <-. split; reflexivity. }
  destruct H0 as [Hn Ht]. split; [ exact Hn | split; [ exact Ht | ] ].
  apply run_stats_nonneg; [ exact Hwf | ].
  split; [ lia | now rewrite Ht ].
Qed.

Lemma stats_start_at_zero_and_stay_nonneg_witness :
  num_inferences Examples.m1 = 0 /\ total_inference_time Examples.m1 = zero /\
  0 <= num_inferences
         (run [Track zero Examples.hundredth [UpdateInferenceCount 1; PrintStats]
                 (Some Examples.out_of_memory);
               UpdateInferenceCount 2; Repr] Examples.m1) /\
  nonneg (total_inference_time
            (run [Track zero Examples.hundredth [UpdateInferenceCount 1; PrintStats]
                    (Some Examples.out_of_memory);
                  UpdateInferenceCount 2; Repr] Examples.m1)) = true.
Proof.
  apply (stats_start_at_zero_and_stay_nonneg "m1" "cpu" "float16" []
           (fst (__init__ "m1" "cpu" "float16" []))); reflexivity.
Defined.

(** The end-to-end example of the specification: ten milliseconds in the
    timed region, then two counted inferences. *)
Example end_to_end :
  let self := run [Track zero Examples.hundredth [] None; UpdateInferenceCount 2]
                  Examples.m1 in
  snd (__init__ "m1" "cpu" "float16" []) = Ok Examples.m1 /\
  num_inferences self = 2 /\
  total_inference_time self = Examples.ten /\
  average_latency self = div Examples.ten (of_Z 2).
Proof. repeat split. Qed.

(* ================================================================== *)
(** * Part IV: further properties of the class                         *)
(* ================================================================== *)

(** ** More on [update_inference_count] *)

(** X1: [update_inference_count] fails in one way only: the new counter is
    beyond the float range and the division raises [OverflowError], with
    the counter stored and every other field as before. In all other
    cases it returns; in particular it never raises [ZeroDivisionError]. *)
Theorem update_inference_count_only_overflows (self : BaseModel) (count : Z) :
  if is_infinity (of_Z (num_inferences self + count))
  then update_inference_count self count =
         (set_num_inferences self (num_inferences self + count),
          Raise (Exception OverflowError
                   "int too large to convert to float" None))
  else snd (update_inference_count self count) = Ok tt.
Proof.
  destruct (is_infinity (of_Z (num_inferences self + count))) eqn:H.
  - now apply update_inference_count_raises.
  - now rewrite update_inference_count_returns.
Qed.

(** X2: two counts in a row leave the instance as their sum in one call does,
    provided the final counter converts to a float; this holds even when
    the first of the two calls raised. *)
Theorem update_inference_count_twice (self : BaseModel) (a b : Z) :
  is_infinity (of_Z (num_inferences self + (a + b))) = false ->
  fst (update_inference_count (fst (update_inference_count self a)) b)
  = fst (update_inference_count self (a + b)).
Proof.
  intros Hfin.
  rewrite (update_inference_count_returns self (a + b) Hfin).
  set (s1 := fst (update_inference_count self a)).
  assert (Hn : num_inferences s1 = num_inferences self + a)
    by apply update_inference_count_num.
  assert (Ht : total_inference_time s1 = total_inference_time self)
    by apply update_inference_count_total.
  assert (Hc : config s1 = config self).
  { subst s1. unfold update_inference_count.
    destruct (negb _); [ destruct (float_truediv_int _ _) | ]; reflexivity. }
  assert (Hfin1 : is_infinity (of_Z (num_inferences s1 + b)) = false).
  { rewrite Hn. now replace (num_inferences self + a + b)
      with (num_inferences self + (a + b)) by lia. }
  rewrite (update_inference_count_returns s1 b Hfin1). cbn [fst].
  rewrite Hn, Ht.
  replace (num_inferences self + a + b)
    with (num_inferences self + (a + b)) by lia.
  unfold config in Hc. injection Hc as Hid Hdev Hdt.
  unfold set_average_latency, set_num_inferences. simpl.
  now rewrite Hid, Hdev, Hdt, Ht.
Qed.

Lemma update_inference_count_twice_witness :
  fst (update_inference_count
         (fst (update_inference_count Scenarios.saturated 5)) (-5))
  = fst (update_inference_count Scenarios.saturated (5 + -5))
  /\ snd (update_inference_count Scenarios.saturated 5)
     = Raise (Exception OverflowError "int too large to convert to float" None).
Proof.
  split.
  - apply (update_inference_count_twice Scenarios.saturated 5 (-5)).
    reflexivity.
  - reflexivity.
Defined.

(** ** Accounting over sequences of calls *)

Lemma run_cons (o : op) (ops : list op) (self : BaseModel) :
  run (o :: ops) self = run ops (run_op o self).
Proof. reflexivity. Qed.

Lemma run_op_track (start_time end_time : float) (body : list op)
    (exc : option exn) (self : BaseModel) :
  run_op (Track start_time end_time body exc) self =
    set_total_inference_time (run body self)
      (add (total_inference_time (run body self))
           (mul (sub end_time start_time) (of_Z 1000))).
Proof.
  cbn [run_op]. rewrite track_inference_time_unfold. reflexivity.
Qed.

Lemma run_op_update_config (self : BaseModel) (count : Z) :
  config (fst (update_inference_count self count)) = config self.
Proof.
  unfold update_inference_count.
  destruct (negb _); [ destruct (float_truediv_int _ _) | ]; reflexivity.
Qed.

(** X3: the counter after any sequence of calls is the counter before it plus
    the counts of all [update_inference_count] calls, those made inside
    timed regions included: no other call touches it, and a call that
    raises has still counted. *)
Theorem run_counts (ops : list op) (self : BaseModel) :
  num_inferences (run ops self) = num_inferences self + counted_all ops.
Proof.
  assert (Hop : forall o self,
             num_inferences (run_op o self) = num_inferences self + counted o).
  { induction o as [start_time end_time body exc IHbody | count | | | images]
      using op_ind_nested; intros s; cbn [counted]; try (cbn [run_op]; lia).
    - rewrite run_op_track. cbn [num_inferences set_total_inference_time].
      revert s. induction IHbody as [ | o body Ho _ IH ]; intros s.
      + simpl. lia.
      + rewrite run_cons, IH, Ho. simpl. lia.
    - cbn [run_op]. apply update_inference_count_num. }
  revert self. induction ops as [ | o ops IH ]; intros self.
  - simpl. lia.
  - rewrite run_cons, IH, Hop. simpl. lia.
Qed.

(** X4: the total after any sequence of calls is the total before it with
    the elapsed time of every timed region added, one at a time in the
    order in which the regions are left; no other call touches it. *)
Theorem run_total (ops : list op) (self : BaseModel) :
  total_inference_time (run ops self)
  = fold_left add (flat_map elapsed_times ops) (total_inference_time self).
Proof.
  assert (Hop : forall o self,
             total_inference_time (run_op o self)
             = fold_left add (elapsed_times o) (total_inference_time self)).
  { induction o as [start_time end_time body exc IHbody | count | | | images]
      using op_ind_nested; intros s; cbn [elapsed_times]; try reflexivity.
    - rewrite run_op_track. cbn [total_inference_time set_total_inference_time].
      rewrite fold_left_app. cbn [fold_left]. f_equal.
      revert s. induction IHbody as [ | o body Ho _ IH ]; intros s.
      + reflexivity.
      + rewrite run_cons, IH, Ho. simpl. now rewrite fold_left_app.
    - cbn [run_op fold_left]. apply update_inference_count_total. }
  revert self. induction ops as [ | o ops IH ]; intros self.
  - reflexivity.
  - rewrite run_cons, IH, Hop. simpl. now rewrite fold_left_app.
Qed.

(** ** The average is never negative *)

Lemma SFdiv_core_binary_nonneg (m1 m2 : positive) (e1 e2 : Z) :
  0 <= fst (fst (SFdiv_core_binary prec emax (Z.pos m1) e1 (Z.pos m2) e2)).
Proof.
  unfold SFdiv_core_binary.
  set (s := _ - _ - _).
  set (m' := match s with Z0 => _ | Z.pos _ => _ | Z.neg _ => _ end).
  assert (Hm : 0 <= m').
  { subst m'. destruct s; try lia. apply Z.shiftl_nonneg. lia. }
  pose proof (Z.div_pos m' (Z.pos m2) Hm ltac:(lia)) as Hq.
  unfold Z.div in Hq. destruct (Z.div_eucl m' (Z.pos m2)) as [q r].
  exact Hq.
Qed.

Lemma div_nonneg_finite (x : float) (m : positive) (e : Z) :
  nonneg x = true -> nonneg (div x (S754_finite false m e)) = true.
Proof.
  intros Hx.
  destruct (Binary64Facts.nonneg_cases x Hx) as [[sx ->] | [-> | (mx & ex & ->)]].
  - destruct sx; reflexivity.
  - reflexivity.
  - apply Binary64Facts.has_sign_nonneg. unfold div, SFdiv.
    pose proof (SFdiv_core_binary_nonneg mx m ex e) as Hq.
    destruct (SFdiv_core_binary _ _ _ _ _ _) as [[mz ez] lz].
    now apply Binary64Facts.binary_round_aux_sign.
Qed.

Lemma of_Z_pos_finite (n : Z) :
  0 < n -> is_infinity (of_Z n) = false ->
  exists m e, of_Z n = S754_finite false m e.
Proof.
  intros Hn Hfin. pose proof (Binary64Facts.of_Z_nonzero n ltac:(lia)) as S.
  replace (n <? 0) with false in S by (symmetry; apply Z.ltb_ge; lia).
  destruct (of_Z n) as [s | s | | s m e]; simpl in S, Hfin;
    try contradiction; try discriminate.
  subst s. eauto.
Qed.

Lemma update_inference_count_average_nonneg (self : BaseModel) (count : Z) :
  0 < count -> stats_nonneg self -> nonneg (average_latency self) = true ->
  nonneg (average_latency (fst (update_inference_count self count))) = true.
Proof.
  intros Hc [Hn Ht] Ha.
  destruct (is_infinity (of_Z (num_inferences self + count))) eqn:Hinf.
  - rewrite (update_inference_count_raises self count Hinf). exact Ha.
  - rewrite (update_inference_count_returns self count Hinf). simpl.
    destruct (Z.eqb_spec (num_inferences self + count) 0) as [E | E]; [ lia | ].
    destruct (of_Z_pos_finite (num_inferences self + count)) as (m & e & ->);
      [ lia | exact Hinf | ].
    now apply div_nonneg_finite.
Qed.

(** X6: with positive counts and a monotonic clock, an average that is not
    negative stays so through any sequence of calls, whether the calls
    return or raise. *)
Theorem run_average_nonneg (ops : list op) (self : BaseModel) :
  forallb well_formed ops = true ->
  stats_nonneg self ->
  nonneg (average_latency self) = true ->
  nonneg (average_latency (run ops self)) = true.
Proof.
  assert (Hop : forall o, well_formed o = true -> forall self,
             stats_nonneg self -> nonneg (average_latency self) = true ->
             nonneg (average_latency (run_op o self)) = true).
  { induction o as [start_time end_time body exc IHbody | count | | | images]
      using op_ind_nested; intros Hwf s Hs Ha; trivial.
    - simpl in Hwf. apply andb_prop in Hwf as [_ Hbody].
      rewrite run_op_track. cbn [average_latency set_total_inference_time].
      revert s Hs Ha Hbody.
      induction IHbody as [ | o body Ho _ IH ]; intros s Hs Ha Hbody; [ exact Ha | ].
      simpl in Hbody. apply andb_prop in Hbody as [Hwo Hbody].
      rewrite run_cons. apply IH; auto using run_op_stats_nonneg.
    - simpl in Hwf. apply Z.ltb_lt in Hwf. cbn [run_op].
      now apply update_inference_count_average_nonneg. }
  intros Hwf. revert self.
  induction ops as [ | o ops IH ]; intros self Hs Ha; [ exact Ha | ].
  simpl in Hwf. apply andb_prop in Hwf as [Hwo Hwf].
  rewrite run_cons. apply IH; auto using run_op_stats_nonneg.
Qed.

Lemma run_average_nonneg_witness :
  nonneg (average_latency
            (run [Track zero Examples.hundredth [UpdateInferenceCount 3] None;
                  UpdateInferenceCount (2 ^ 1024);
                  Track Examples.hundredth Examples.one [] (Some Examples.out_of_memory)]
                 Examples.m1)) = true.
Proof.
  apply (run_average_nonneg
           [Track zero Examples.hundredth [UpdateInferenceCount 3] None;
            UpdateInferenceCount (2 ^ 1024);
            Track Examples.hundredth Examples.one [] (Some Examples.out_of_memory)]
           Examples.m1).
  - reflexivity.
  - split; [ vm_compute; discriminate | reflexivity ].
  - reflexivity.
Defined.

(** ** More on [parse_images] *)

Section ParseImagesMore.

Context {Image : Type} (w : World Image).

Lemma parse_images_loop_outcome (images : list pyobj) :
  forall parsed_images,
    match parse_images_loop w images parsed_images with
    | Ok result =>
        forallb (loads w) images = true /\
        length result = (length parsed_images + length images)%nat
    | Raise _ => forallb (loads w) images = false
    end.
Proof.
  induction images as [ | x images IH ]; intros parsed_images.
  - simpl. split; [ reflexivity | lia ].
  - destruct x as [ | n | f | p | items | items ]; try reflexivity.
    simpl. destruct (load_image w p) as [image | e]; simpl; [ | reflexivity ].
    specialize (IH (parsed_images ++ [image])).
    destruct (parse_images_loop w images (parsed_images ++ [image])).
    + destruct IH as [Hl Hn]. split; [ exact Hl | ].
      rewrite Hn, length_app. simpl. lia.
    + exact IH.
Qed.

(** X7: [parse_images] returns exactly when every element it visits is a
    string that loads, and it then returns one image per element;
    otherwise it raises. The elements are those of a list argument, or
    the argument itself when it is not a list. *)
Theorem parse_images_returns_iff_all_load (images : pyobj) :
  match parse_images w images with
  | Ok result =>
      forallb (loads w) (elements images) = true /\
      length result = length (elements images)
  | Raise _ => forallb (loads w) (elements images) = false
  end.
Proof.
  rewrite parse_images_elements.
  apply (parse_images_loop_outcome (elements images) []).
Qed.

Lemma parse_images_loop_acc (images : list pyobj) :
  forall parsed_images,
    parse_images_loop w images parsed_images =
      (result <- parse_images_loop w images [] ;;; Ok (parsed_images ++ result)).
Proof.
  induction images as [ | x images IH ]; intros parsed_images.
  - simpl. now rewrite app_nil_r.
  - destruct x as [ | n | f | p | items | items ]; try reflexivity.
    simpl. destruct (load_image w p) as [image | e]; simpl; [ | reflexivity ].
    rewrite (IH (parsed_images ++ [image])), (IH [image]).
    destruct (parse_images_loop w images []); simpl; [ | reflexivity ].
    now rewrite <- app_assoc.
Qed.

Lemma parse_images_loop_app (images1 images2 : list pyobj) :
  forall parsed_images,
    parse_images_loop w (images1 ++ images2) parsed_images =
      (result <- parse_images_loop w images1 parsed_images ;;;
       parse_images_loop w images2 result).
Proof.
  induction images1 as [ | x images1 IH ]; intros parsed_images.
  - reflexivity.
  - destruct x as [ | n | f | p | items | items ]; try reflexivity.
    simpl. destruct (load_image w p) as [image | e]; simpl; [ | reflexivity ].
    apply IH.
Qed.

(** X8: parsing a concatenation of two lists is parsing the first, then the
    second, and appending the results; when the first raises, the second
    is never visited. *)
Theorem parse_images_app (images1 images2 : list pyobj) :
  parse_images w (PyList (images1 ++ images2)) =
    (result1 <- parse_images w (PyList images1) ;;;
     result2 <- parse_images w (PyList images2) ;;;
     Ok (result1 ++ result2)).
Proof.
  unfold parse_images. rewrite parse_images_loop_app.
  destruct (parse_images_loop w images1 []) as [result1 | e]; simpl;
    [ | reflexivity ].
  apply parse_images_loop_acc.
Qed.

(** X9: an exception raised while fetching a URL, whatever its class, and an
    exception other than [FileNotFoundError] raised while opening a local
    file, leave [parse_images] unchanged once the elements before have
    loaded. *)
Theorem parse_images_propagates (images : pyobj) (pre : list pyobj)
    (p : string) (post : list pyobj) (e : exn) :
  elements images = pre ++ PyStr p :: post ->
  forallb (loads w) pre = true ->
  (if startswith p ["http://"; "https://"]
   then requests_get_open_convert w p = Raise e
   else Image_open_convert w p = Raise e /\ is_FileNotFoundError e = false) ->
  parse_images w images = Raise e.
Proof.
  intros Hel Hpre Hp.
  assert (Hload : load_image w p = Raise e).
  { unfold load_image. destruct (startswith p _).
    - exact Hp.
    - destruct Hp as [-> ->]. reflexivity. }
  rewrite parse_images_elements, Hel.
  destruct (parse_images_loop_loads w pre (PyStr p :: post) Hpre []) as [loaded ->].
  simpl. now rewrite Hload.
Qed.


End ParseImagesMore.

Lemma load_image_same_source {Image : Type} (w1 w2 : World Image) (p : string) :
  same_source w1 w2 (PyStr p) -> load_image w1 p = load_image w2 p.
Proof.
  unfold same_source, load_image.
  destruct (startswith p _); intros ->; reflexivity.
Qed.

(** X11: the result of [parse_images] depends, for each element, on one source
    only: a URL is never opened as a file and no other string is ever
    fetched, so two worlds that agree on the source of each element give
    the same result. *)
Theorem parse_images_same_sources {Image : Type} (w1 w2 : World Image)
    (images : pyobj) :
  Forall (same_source w1 w2) (elements images) ->
  parse_images w1 images = parse_images w2 images.
Proof.
  intros H. rewrite !parse_images_elements.
  generalize (@nil Image).
  induction H as [ | x items Hx _ IH ]; intros parsed_images; [ reflexivity | ].
  destruct x as [ | n | f | p | l | l ]; try reflexivity.
  simpl. rewrite (load_image_same_source w1 w2 p Hx).
  destruct (load_image w2 p); simpl; [ apply IH | reflexivity ].
Qed.

Lemma parse_images_propagates_witness :
  parse_images Scenarios.cache_miss
    (PyList [PyStr "a.jpg"; PyStr "https://example.com/b.png"; PyInt 7])
  = Raise (Examples.no_such_file "https://example.com/b.png").
Proof.
  apply (parse_images_propagates Scenarios.cache_miss
           (PyList [PyStr "a.jpg"; PyStr "https://example.com/b.png"; PyInt 7])
           [PyStr "a.jpg"] "https://example.com/b.png" [PyInt 7]);
    reflexivity.
Defined.


Lemma parse_images_same_sources_witness :
  parse_images Examples.world (PyList [PyStr "a.jpg"; PyStr "missing/file.png"])
  = parse_images Scenarios.offline
      (PyList [PyStr "a.jpg"; PyStr "missing/file.png"]).
Proof.
  apply (parse_images_same_sources Examples.world Scenarios.offline
           (PyList [PyStr "a.jpg"; PyStr "missing/file.png"])).
  constructor; [ reflexivity | ].
  constructor; [ reflexivity | ].
  constructor.
Defined.

(** ** Reports *)

Lemma prefix_append (s1 s2 : string) : String.prefix s1 (s1 +:+ s2) = true.
Proof.
  induction s1 as [ | c s1 IH ]; simpl.
  - destruct s2; reflexivity.
  - destruct (Ascii.ascii_dec c c); [ exact IH | congruence ].
Qed.

Lemma length_append (s1 s2 : string) :
  String.length (s1 +:+ s2) = (String.length s1 + String.length s2)%nat.
Proof. induction s1 as [ | c s1 IH ]; simpl; [ reflexivity | now rewrite IH ]. Qed.

Lemma substring_whole (s : string) : substring 0 (String.length s) s = s.
Proof. induction s as [ | c s IH ]; simpl; [ reflexivity | now rewrite IH ]. Qed.

Lemma substring_append (s1 s2 : string) :
  substring (String.length s1) (String.length s2) (s1 +:+ s2) = s2.
Proof. induction s1 as [ | c s1 IH ]; simpl; [ apply substring_whole | exact IH ]. Qed.

Lemma endswith_append (s suffix : string) : endswith (s +:+ suffix) suffix = true.
Proof.
  unfold endswith. rewrite length_append.
  replace (String.length s + String.length suffix - String.length suffix)%nat
    with (String.length s) by lia.
  rewrite substring_append. apply String.eqb_refl.
Qed.

Lemma append_assoc (s1 s2 s3 : string) :
  (s1 +:+ s2) +:+ s3 = s1 +:+ (s2 +:+ s3).
Proof.
  induction s1 as [ | c s1 IH ]; [ reflexivity | ].
  change (String c ((s1 +:+ s2) +:+ s3) = String c (s1 +:+ (s2 +:+ s3))).
  now f_equal.
Qed.

(** X12: [repr] opens with the class name, a parenthesis and the model id, and
    it ends with a comma and a space after the quoted dtype: the method
    never writes the closing parenthesis. *)
Theorem repr_is_left_open (class_name : string) (self : BaseModel) :
  String.prefix (class_name +:+ "(model_id='" +:+ model_id self)
                (__repr__ class_name self) = true /\
  endswith (__repr__ class_name self)
           (str_dtype (dtype self) +:+ "', ") = true.
Proof.
  split.
  - unfold __repr__.
    replace (class_name +:+ "(" +:+ "model_id='" +:+ model_id self +:+ "', "
             +:+ "device='" +:+ device self +:+ "', " +:+ "dtype='"
             +:+ str_dtype (dtype self) +:+ "', ")
      with ((class_name +:+ "(model_id='" +:+ model_id self)
            +:+ ("', " +:+ "device='" +:+ device self +:+ "', " +:+ "dtype='"
                 +:+ str_dtype (dtype self) +:+ "', "))
      by (rewrite !append_assoc; reflexivity).
    apply prefix_append.
  - unfold __repr__.
    replace (class_name +:+ "(" +:+ "model_id='" +:+ model_id self +:+ "', "
             +:+ "device='" +:+ device self +:+ "', " +:+ "dtype='"
             +:+ str_dtype (dtype self) +:+ "', ")
      with ((class_name +:+ "(" +:+ "model_id='" +:+ model_id self +:+ "', "
             +:+ "device='" +:+ device self +:+ "', " +:+ "dtype='")
            +:+ (str_dtype (dtype self) +:+ "', "))
      by (rewrite !append_assoc; reflexivity).
    apply endswith_append.
Qed.

Lemma run_config (ops : list op) (self : BaseModel) :
  config (run ops self) = config self.
Proof.
  assert (Hop : forall o self, config (run_op o self) = config self).
  { induction o as [start_time end_time body exc IHbody | count | | | images]
      using op_ind_nested; intros s; try reflexivity.
    - rewrite run_op_track.
      change (config (set_total_inference_time (run body s) _))
        with (config (run body s)).
      revert s. induction IHbody as [ | o body Ho _ IH ]; intros s.
      + reflexivity.
      + now rewrite run_cons, IH, Ho.
    - cbn [run_op]. apply run_op_update_config. }
  revert self. induction ops as [ | o ops IH ]; intros self.
  - reflexivity.
  - now rewrite run_cons, IH, Hop.
Qed.

(** X5: no sequence of calls changes the model id, the device or the dtype of
    an instance, so [repr] gives the same string before and after it. *)
Theorem run_keeps_config (ops : list op) (self : BaseModel) :
  config (run ops self) = config self /\
  forall class_name,
    __repr__ class_name (run ops self) = __repr__ class_name self.
Proof.
  pose proof (run_config ops self) as H. split; [ exact H | ].
  intros class_name. unfold config in H. injection H as Hid Hdev Hdt.
  unfold __repr__. now rewrite Hid, Hdev, Hdt.
Qed.

(** X13: for a newly built instance, [print_stats] is one call of the
    console on one table: the title, the two styled columns and six rows
    holding the model id and the device as given and unescaped, the dtype
    under its torch name and not as the string that was passed, a counter
    of ["0"] and both times formatted from [0.0]. The call returns or
    raises as the console does on that table; the counter never trips
    the digit limit. *)
Theorem print_stats_after_init {Terminal : Type} (env : Reporting Terminal)
    (model_id device dtype : string) (log log' : list log_entry)
    (self : BaseModel) (console : Terminal) :
  __init__ model_id device dtype log = (log', Ok self) ->
  print_stats env self console =
    console_print env
      {| title := "Model Info"; box := "ROUNDED";
         columns := [ {| header := "Attribute"; style := "cyan" |};
                      {| header := "Value"; style := "magenta" |} ];
         rows := [ ("Model ID", model_id);
                   ("Device", device);
                   ("Dtype", "torch." +:+ dtype);
                   ("Number of Inferences", "0");
                   ("Total Inference Time (ms)", format_4f env zero);
                   ("Average Latency (ms)", format_4f env zero) ] |}
      console.
Proof.
  intros Hinit.
  unfold __init__ in Hinit. rewrite dtype_map_lookup in Hinit.
  assert (Hfmt : format_int (int_max_str_digits env) 0 = Ok "0").
  { unfold format_int.
    change (decimal_digits 0) with 1.
    destruct (0 <? int_max_str_digits env) eqn:E1; [ | reflexivity ].
    destruct (int_max_str_digits env <? 1) eqn:E2; [ | reflexivity ].
    apply Z.ltb_lt in E1, E2. lia. }
  repeat case_decide; try discriminate; subst dtype;
    injection Hinit as _ <-; unfold print_stats;
    cbn [num_inferences set_dtype]; rewrite Hfmt; reflexivity.
Qed.

Lemma print_stats_after_init_witness :
  print_stats Scenarios.recording Examples.m1 [] =
    ([ {| title := "Model Info"; box := "ROUNDED";
          columns := [ {| header := "Attribute"; style := "cyan" |};
                       {| header := "Value"; style := "magenta" |} ];
          rows := [ ("Model ID", "m1");
                    ("Device", "cpu");
                    ("Dtype", "torch.float16");
                    ("Number of Inferences", "0");
                    ("Total Inference Time (ms)", "0.0000");
                    ("Average Latency (ms)", "0.0000") ] |} ],
     Ok tt).
Proof.
  apply (print_stats_after_init Scenarios.recording "m1" "cpu" "float16" []
           (fst (__init__ "m1" "cpu" "float16" [])) Examples.m1 []).
  reflexivity.
Defined.

(** A model id that rich reads as a closing tag makes the console, and
    so [print_stats], raise [MarkupError]; and a counter with more digits
    than the limit makes [print_stats] raise [ValueError] before the
    console is called. *)
Example print_stats_raises :
  (forall self,
      snd (__init__ "[/x]" "cpu" "float32" []) = Ok self ->
      print_stats Scenarios.recording self []
      = ([], Raise (Scenarios.markup_error "[/x]"))) /\
  (exists e,
      print_stats Scenarios.recording
        (set_num_inferences Examples.m1 (10 ^ 4300)) []
      = ([], Raise e) /\ is_ValueError e = true).
Proof.
  split.
  - intros self H. injection H as <-. reflexivity.
  - eexists. split; [ vm_compute; reflexivity | reflexivity ].
Qed.
